(** * The product-updated HTTP sink: payload validation

    A shallow embedding of [src/functions/product-updated-http.ts]:
    the predicate [isIsoDateString], the validator [validatePayload] and the
    handler [productUpdatedHttpHandler], together with the parts of the
    ECMAScript run time they call ([typeof], truthiness, [String.prototype.trim],
    [Number.isInteger], the [Date] constructor and [Date.prototype.toISOString]).

    Strings are sequences of UTF-16 code units, numbers are IEEE 754 binary64
    values ([spec_float]), a time value is an integral number of milliseconds
    or NaN ([option Z]). *)

From Stdlib Require Import ZArith NArith List Bool String Ascii Lia QArith Qpower.
From Stdlib Require Import Floats.SpecFloat.
Import ListNotations.

Set Warnings "-register-all".
Open Scope Z_scope.

(* ===================================================================== *)
(** ** ECMAScript values *)
(* ===================================================================== *)

(** A string value: its UTF-16 code units. *)
Definition JsString := list N.

(** The code units of an ASCII literal. *)
Definition str (s : string) : JsString :=
  map N_of_ascii (list_ascii_of_string s).

Definition JsString_eqb (a b : JsString) : bool :=
  if list_eq_dec N.eq_dec a b then true else false.

(** The values a decoded request body is made of, and [undefined], which a
    destructuring pattern binds to a property the object does not have. *)
Inductive JsValue : Type :=
| JUndefined
| JNull
| JBoolean (b : bool)
| JNumber (x : spec_float)
| JString (s : JsString)
| JArray (items : list JsValue)
| JObject (props : list (JsString * JsValue)).

Inductive JsType : Set :=
| TUndefined | TObject | TBoolean | TNumber | TString.

Definition JsType_eqb (a b : JsType) : bool :=
  match a, b with
  | TUndefined, TUndefined | TObject, TObject | TBoolean, TBoolean
  | TNumber, TNumber | TString, TString => true
  | _, _ => false
  end.

(** The [typeof] operator: [null] and arrays are of type "object". *)
Definition typeof (v : JsValue) : JsType :=
  match v with
  | JUndefined => TUndefined
  | JNull => TObject
  | JBoolean _ => TBoolean
  | JNumber _ => TNumber
  | JString _ => TString
  | JArray _ => TObject
  | JObject _ => TObject
  end.

(** ToBoolean, the truthiness the [!] operator negates. *)
Definition ToBoolean (v : JsValue) : bool :=
  match v with
  | JUndefined => false
  | JNull => false
  | JBoolean b => b
  | JNumber (S754_zero _) => false
  | JNumber S754_nan => false
  | JNumber _ => true
  | JString s => negb (Nat.eqb (List.length s) 0)
  | JArray _ => true
  | JObject _ => true
  end.

(** Own-property lookup in a decoded object. *)
Fixpoint lookup (key : JsString) (props : list (JsString * JsValue)) : option JsValue :=
  match props with
  | [] => None
  | (k, v) :: rest => if JsString_eqb k key then Some v else lookup key rest
  end.

(** [body.key] for one of the five field names: a property of an object, and
    [undefined] on an array (whose own keys are indices and "length") and
    where the property is missing. *)
Definition getField (body : JsValue) (key : JsString) : JsValue :=
  match body with
  | JObject props =>
      match lookup key props with
      | Some v => v
      | None => JUndefined
      end
  | _ => JUndefined
  end.

(* ===================================================================== *)
(** ** Strings: trimming *)
(* ===================================================================== *)

(** WhiteSpace and LineTerminator code points, the ones [trim] removes. *)
Definition isWhiteSpace (c : N) : bool :=
  ((c =? 0x0009) || (c =? 0x000A) || (c =? 0x000B) || (c =? 0x000C)
   || (c =? 0x000D) || (c =? 0x0020) || (c =? 0x00A0) || (c =? 0x1680)
   || ((0x2000 <=? c) && (c <=? 0x200A))
   || (c =? 0x2028) || (c =? 0x2029) || (c =? 0x202F) || (c =? 0x205F)
   || (c =? 0x3000) || (c =? 0xFEFF))%N.

Fixpoint trimStart (s : JsString) : JsString :=
  match s with
  | [] => []
  | c :: rest => if isWhiteSpace c then trimStart rest else s
  end.

Definition trimEnd (s : JsString) : JsString :=
  rev (trimStart (rev s)).

Definition trim (s : JsString) : JsString :=
  trimEnd (trimStart s).

(* ===================================================================== *)
(** ** Numbers *)
(* ===================================================================== *)

(** [Number.isInteger]: the value is finite and has no fractional part. A
    finite non-zero binary64 is [m * 2^e] up to sign. *)
Definition Number_isInteger (x : spec_float) : bool :=
  match x with
  | S754_zero _ => true
  | S754_infinity _ => false
  | S754_nan => false
  | S754_finite _ m e =>
      if 0 <=? e then true else (Z.pos m mod 2 ^ (- e) =? 0)
  end.

(** [x < 0]: false when [x] is NaN or a zero of either sign. *)
Definition Number_ltZero (x : spec_float) : bool :=
  SFltb x (S754_zero false).

(** The binary64 nearest to [m * 2^e]. *)
Definition binary64 (m e : Z) : spec_float :=
  binary_normalize 53 1024 m e false.

(* ===================================================================== *)
(** ** Time values and the calendar (ECMA-262, Date objects) *)
(* ===================================================================== *)

Module TimeValue.

Definition msPerSecond : Z := 1000.
Definition msPerMinute : Z := 60000.
Definition msPerHour : Z := 3600000.
Definition msPerDay : Z := 86400000.

(** The largest magnitude of a time value: 100,000,000 days around the epoch. *)
Definition maxTime : Z := 8640000000000000.

Definition Day (t : Z) : Z := t / msPerDay.
Definition TimeWithinDay (t : Z) : Z := t mod msPerDay.

Definition isLeapYear (y : Z) : bool :=
  if negb (y mod 4 =? 0) then false
  else if negb (y mod 100 =? 0) then true
  else if negb (y mod 400 =? 0) then false
  else true.

Definition DaysInYear (y : Z) : Z := if isLeapYear y then 366 else 365.

Definition DayFromYear (y : Z) : Z :=
  365 * (y - 1970) + (y - 1969) / 4 - (y - 1901) / 100 + (y - 1601) / 400.

Definition TimeFromYear (y : Z) : Z := msPerDay * DayFromYear y.

(** The largest [y] with [TimeFromYear y <= t]: the mean-year estimate is off
    by at most one, and is adjusted. *)
Definition YearFromTime (t : Z) : Z :=
  let y := 1970 + (Day t * 400) / 146097 in
  if TimeFromYear (y + 1) <=? t then y + 1
  else if TimeFromYear y <=? t then y
  else y - 1.

Definition InLeapYear (t : Z) : bool := isLeapYear (YearFromTime t).

Definition DayWithinYear (t : Z) : Z := Day t - DayFromYear (YearFromTime t).

(** The day within the year on which month [m] (0 = January) starts. *)
Definition monthStart (leap : bool) (m : Z) : Z :=
  let l := if leap then 1 else 0 in
  match m with
  | 0 => 0
  | 1 => 31
  | 2 => 59 + l
  | 3 => 90 + l
  | 4 => 120 + l
  | 5 => 151 + l
  | 6 => 181 + l
  | 7 => 212 + l
  | 8 => 243 + l
  | 9 => 273 + l
  | 10 => 304 + l
  | 11 => 334 + l
  | _ => 365 + l
  end.

Definition monthOfDay (leap : bool) (d : Z) : Z :=
  if d <? monthStart leap 1 then 0
  else if d <? monthStart leap 2 then 1
  else if d <? monthStart leap 3 then 2
  else if d <? monthStart leap 4 then 3
  else if d <? monthStart leap 5 then 4
  else if d <? monthStart leap 6 then 5
  else if d <? monthStart leap 7 then 6
  else if d <? monthStart leap 8 then 7
  else if d <? monthStart leap 9 then 8
  else if d <? monthStart leap 10 then 9
  else if d <? monthStart leap 11 then 10
  else 11.

Definition MonthFromTime (t : Z) : Z :=
  monthOfDay (InLeapYear t) (DayWithinYear t).

Definition DateFromTime (t : Z) : Z :=
  DayWithinYear t - monthStart (InLeapYear t) (MonthFromTime t) + 1.

Definition DaysInMonth (y m : Z) : Z :=
  monthStart (isLeapYear y) (m + 1) - monthStart (isLeapYear y) m.

Definition HourFromTime (t : Z) : Z := (t / msPerHour) mod 24.
Definition MinFromTime (t : Z) : Z := (t / msPerMinute) mod 60.
Definition SecFromTime (t : Z) : Z := (t / msPerSecond) mod 60.
Definition msFromTime (t : Z) : Z := t mod msPerSecond.

Definition MakeTime (hour min sec ms : Z) : Z :=
  hour * msPerHour + min * msPerMinute + sec * msPerSecond + ms.

(** The day number of day [date] of month [month] (0 = January) of [year]. *)
Definition MakeDay (year month date : Z) : Z :=
  let ym := year + month / 12 in
  let mn := month mod 12 in
  DayFromYear ym + monthStart (isLeapYear ym) mn + date - 1.

Definition MakeDate (day time : Z) : Z := day * msPerDay + time.

(** TimeClip: NaN, here [None], outside the representable range. *)
Definition TimeClip (t : option Z) : option Z :=
  match t with
  | None => None
  | Some tv => if Z.abs tv <=? maxTime then Some tv else None
  end.

End TimeValue.

Import TimeValue.

(* ===================================================================== *)
(** ** Date.prototype.toISOString *)
(* ===================================================================== *)

Definition digitChar (d : Z) : N := (48 + Z.to_N d)%N.

(** ToZeroPaddedDecimalString for [0 <= n < 10 ^ minLength], which is the case
    of every field [toISOString] prints: the [minLength] decimal digits of
    [n], most significant first. *)
Fixpoint ToZeroPaddedDecimalString (n : Z) (minLength : nat) : JsString :=
  match minLength with
  | O => []
  | S k => digitChar ((n / 10 ^ Z.of_nat k) mod 10) :: ToZeroPaddedDecimalString n k
  end.

(** Years 0 to 9999 print as four digits, the others as a sign and six. *)
Definition yearString (y : Z) : JsString :=
  if (0 <=? y) && (y <=? 9999) then ToZeroPaddedDecimalString y 4
  else (if y <? 0 then str "-" else str "+")
         ++ ToZeroPaddedDecimalString (Z.abs y) 6.

(** The serialization of a finite time value: YYYY-MM-DDTHH:mm:ss.sssZ in UTC. *)
Definition toISOString (tv : Z) : JsString :=
  yearString (YearFromTime tv)
    ++ str "-" ++ ToZeroPaddedDecimalString (MonthFromTime tv + 1) 2
    ++ str "-" ++ ToZeroPaddedDecimalString (DateFromTime tv) 2
    ++ str "T" ++ ToZeroPaddedDecimalString (HourFromTime tv) 2
    ++ str ":" ++ ToZeroPaddedDecimalString (MinFromTime tv) 2
    ++ str ":" ++ ToZeroPaddedDecimalString (SecFromTime tv) 2
    ++ str "." ++ ToZeroPaddedDecimalString (msFromTime tv) 3
    ++ str "Z".

(* ===================================================================== *)
(** ** The Date Time String Format and Date.parse *)
(* ===================================================================== *)

Module DateTimeFormat.

Inductive UtcOffset : Set :=
| OffsetAbsent
| OffsetZ
| OffsetHM (negative : bool) (hh mm : Z).

(** The elements of a string in the format. Absent ones have their default:
    month and day 1, the time elements 0. *)
Record Fields : Set := mkFields {
  year : Z;
  month : Z;
  day : Z;
  hasTime : bool;
  hour : Z;
  minute : Z;
  second : Z;
  millisecond : Z;
  offset : UtcOffset
}.

Definition isDigit (c : N) : bool := ((48 <=? c) && (c <=? 57))%N.

(** Exactly [k] decimal digits. *)
Fixpoint readDigits (k : nat) (acc : Z) (s : JsString) : option (Z * JsString) :=
  match k with
  | O => Some (acc, s)
  | S k' =>
      match s with
      | c :: rest =>
          if isDigit c then readDigits k' (10 * acc + Z.of_N (c - 48)) rest
          else None
      | [] => None
      end
  end.

Definition bind {A B : Type} (x : option A) (f : A -> option B) : option B :=
  match x with
  | Some a => f a
  | None => None
  end.

Notation "' p <- x ;; k" := (bind x (fun p => k))
  (at level 61, p pattern, x at next level, right associativity).

Definition chMinus : N := 45.
Definition chPlus : N := 43.
Definition chColon : N := 58.
Definition chDot : N := 46.
Definition chT : N := 84.
Definition chZ : N := 90.

(** YYYY, or an expanded year: a sign and six digits, -000000 excluded. *)
Definition readYear (s : JsString) : option (Z * JsString) :=
  match s with
  | c :: rest =>
      if (c =? chPlus)%N then readDigits 6 0 rest
      else if (c =? chMinus)%N then
        '(y, r) <- readDigits 6 0 rest ;;
        if y =? 0 then None else Some (- y, r)
      else readDigits 4 0 s
  | [] => None
  end.

(** The optional -MM and -DD after the year. *)
Definition readMonthDay (s : JsString) : option (Z * Z * JsString) :=
  match s with
  | c :: rest =>
      if (c =? chMinus)%N then
        '(m, r1) <- readDigits 2 0 rest ;;
        match r1 with
        | c1 :: rest1 =>
            if (c1 =? chMinus)%N then
              '(d, r2) <- readDigits 2 0 rest1 ;;
              Some (m, d, r2)
            else Some (m, 1, r1)
        | [] => Some (m, 1, r1)
        end
      else Some (1, 1, s)
  | [] => Some (1, 1, s)
  end.

(** The optional .sss after the seconds. *)
Definition readMillis (s : JsString) : option (Z * JsString) :=
  match s with
  | c :: rest =>
      if (c =? chDot)%N then readDigits 3 0 rest else Some (0, s)
  | [] => Some (0, s)
  end.

(** The optional :ss and .sss after HH:mm. *)
Definition readSeconds (s : JsString) : option (Z * Z * JsString) :=
  match s with
  | c :: rest =>
      if (c =? chColon)%N then
        '(sec, r1) <- readDigits 2 0 rest ;;
        '(ms, r2) <- readMillis r1 ;;
        Some (sec, ms, r2)
      else Some (0, 0, s)
  | [] => Some (0, 0, s)
  end.

(** HH:mm after Z's place, for an offset. *)
Definition readHourMinute (s : JsString) : option (Z * Z * JsString) :=
  '(hh, r1) <- readDigits 2 0 s ;;
  match r1 with
  | c :: rest =>
      if (c =? chColon)%N then
        '(mm, r2) <- readDigits 2 0 rest ;;
        Some (hh, mm, r2)
      else None
  | [] => None
  end.

Definition readOffset (s : JsString) : option (UtcOffset * JsString) :=
  match s with
  | c :: rest =>
      if (c =? chZ)%N then Some (OffsetZ, rest)
      else if (c =? chPlus)%N then
        '(hh, mm, r) <- readHourMinute rest ;; Some (OffsetHM false hh mm, r)
      else if (c =? chMinus)%N then
        '(hh, mm, r) <- readHourMinute rest ;; Some (OffsetHM true hh mm, r)
      else Some (OffsetAbsent, s)
  | [] => Some (OffsetAbsent, s)
  end.

(** The syntax of the format: a date-only form, or a date-only form followed
    by T, a time form and an optional offset, and nothing after. *)
Definition readFields (s : JsString) : option Fields :=
  '(y, r0) <- readYear s ;;
  '(m, d, r1) <- readMonthDay r0 ;;
  match r1 with
  | [] => Some (mkFields y m d false 0 0 0 0 OffsetAbsent)
  | c :: rest =>
      if (c =? chT)%N then
        '(hh, mm, r2) <- readHourMinute rest ;;
        '(sec, ms, r3) <- readSeconds r2 ;;
        '(off, r4) <- readOffset r3 ;;
        match r4 with
        | [] => Some (mkFields y m d true hh mm sec ms off)
        | _ :: _ => None
        end
      else None
  end.

Definition legalOffset (o : UtcOffset) : bool :=
  match o with
  | OffsetHM _ hh mm => (hh <=? 23) && (mm <=? 59)
  | _ => true
  end.

(** The element values are in bounds: a day of that month of that year, a
    time of day, 24:00:00.000 standing for the end of the day. *)
Definition legal (f : Fields) : bool :=
  (1 <=? month f) && (month f <=? 12)
  && (1 <=? day f) && (day f <=? DaysInMonth (year f) (month f - 1))
  && (hour f <=? 24) && (minute f <=? 59) && (second f <=? 59)
  && ((hour f <? 24)
      || ((minute f =? 0) && (second f =? 0) && (millisecond f =? 0)))
  && legalOffset (offset f).

Definition offsetMs (o : UtcOffset) : Z :=
  match o with
  | OffsetHM negative hh mm =>
      let ms := (hh * 60 + mm) * msPerMinute in
      if negative then - ms else ms
  | _ => 0
  end.

End DateTimeFormat.

Import DateTimeFormat.

(** What the host decides: the conversion of a local time to UTC, and the
    result of [Date.parse] on a string that is not an instance of the Date
    Time String Format, for which an implementation may use heuristics of its
    own. [None] is NaN. *)
Record Host : Type := mkHost {
  UTC : Z -> Z;
  implementationParse : JsString -> option Z
}.

Section DateObjects.

Variable host : Host.

(** The time value a legal instance of the format denotes. With no offset, a
    date-only form is UTC and a date-time form is local time. *)
Definition fieldsTime (f : Fields) : Z :=
  let tv :=
    MakeDate (MakeDay (year f) (month f - 1) (day f))
             (MakeTime (hour f) (minute f) (second f) (millisecond f)) in
  match offset f with
  | OffsetAbsent => if hasTime f then UTC host tv else tv
  | o => tv - offsetMs o
  end.

Definition Date_parse (s : JsString) : option Z :=
  match readFields s with
  | Some f => if legal f then Some (fieldsTime f) else implementationParse host s
  | None => implementationParse host s
  end.

(** [new Date(value).getTime()] for a string [value]. *)
Definition Date_getTime (value : JsString) : option Z :=
  TimeClip (Date_parse value).

End DateObjects.

(* ===================================================================== *)
(** ** The validator *)
(* ===================================================================== *)

(** The fields as destructured from the body. The [as ProductUpdatedDto] cast
    is erased at run time, so a field holds the value found in the body;
    [accepted_typed] below shows that an accepted one has its declared type. *)
Record ProductUpdatedDto : Type := mkDto {
  id : JsValue;
  name : JsValue;
  pricePence : JsValue;
  description : JsValue;
  updatedAt : JsValue
}.

(** [{ ok: true, data }] is [Accepted data], [{ ok: false, errors }] is
    [Rejected errors]. *)
Inductive ValidationResult : Type :=
| Accepted (data : ProductUpdatedDto)
| Rejected (errors : list JsString).

Definition ok (r : ValidationResult) : bool :=
  match r with
  | Accepted _ => true
  | Rejected _ => false
  end.

Definition errorsOf (r : ValidationResult) : list JsString :=
  match r with
  | Accepted _ => []
  | Rejected errors => errors
  end.

Definition push (errors : list JsString) (message : JsString) : list JsString :=
  errors ++ [message].

Definition msgBody : JsString := str "Body must be a JSON object.".
Definition msgId : JsString := str "id must be a non-empty string".
Definition msgName : JsString := str "name must be a non-empty string".
Definition msgPricePence : JsString :=
  str "pricePence must be a non-negative integer".
Definition msgDescription : JsString := str "description must be a string".
Definition msgUpdatedAt : JsString :=
  str "updatedAt must be an ISO 8601 string (Date.toISOString)".

(** [typeof v !== 'string' || v.trim().length === 0] *)
Definition notNonEmptyString (v : JsValue) : bool :=
  match v with
  | JString s => Nat.eqb (List.length (trim s)) 0
  | _ => true
  end.

(** [typeof v !== 'number' || !Number.isInteger(v) || v < 0] *)
Definition notNonNegativeInteger (v : JsValue) : bool :=
  match v with
  | JNumber x => negb (Number_isInteger x) || Number_ltZero x
  | _ => true
  end.

(** [typeof v !== 'string'] *)
Definition notString (v : JsValue) : bool :=
  negb (JsType_eqb (typeof v) TString).

Section Validator.

Variable host : Host.

(** The date is valid ([getTime] is not NaN, which is also what lets
    [toISOString] return) and serializes to [value] itself. *)
Definition isIsoDateString (value : JsValue) : bool :=
  match value with
  | JString s =>
      match Date_getTime host s with
      | None => false
      | Some tv => JsString_eqb s (toISOString tv)
      end
  | _ => false
  end.

Definition validatePayload (body : JsValue) : ValidationResult :=
  let errors : list JsString := [] in
  if negb (ToBoolean body) || negb (JsType_eqb (typeof body) TObject) then
    Rejected [msgBody]
  else
    let id := getField body (str "id") in
    let name := getField body (str "name") in
    let pricePence := getField body (str "pricePence") in
    let description := getField body (str "description") in
    let updatedAt := getField body (str "updatedAt") in
    let errors := if notNonEmptyString id then push errors msgId else errors in
    let errors :=
      if notNonEmptyString name then push errors msgName else errors in
    let errors :=
      if notNonNegativeInteger pricePence then push errors msgPricePence
      else errors in
    let errors :=
      if notString description then push errors msgDescription else errors in
    let errors :=
      if negb (isIsoDateString updatedAt) then push errors msgUpdatedAt
      else errors in
    if (0 <? List.length errors)%nat then Rejected errors
    else Accepted (mkDto id name pricePence description updatedAt).

End Validator.

(* ===================================================================== *)
(** ** The HTTP handler *)
(* ===================================================================== *)

(** How awaiting [request.json()] ends: with the decoded body, or by
    throwing when the body is not JSON. *)
Inductive Awaited : Type :=
| Resolved (value : JsValue)
| Thrown (err : JsValue).

Record HttpRequest : Type := mkRequest {
  json : Awaited
}.

Record HttpResponseInit : Type := mkResponse {
  status : Z;
  jsonBody : JsValue
}.

(** What the invocation context has been asked to write. *)
Inductive LogEntry : Type :=
| Log (args : list JsValue)
| Warn (args : list JsValue).

Definition InvocationContext := list LogEntry.

Definition context_log (context : InvocationContext) (args : list JsValue)
  : InvocationContext := context ++ [Log args].

Definition context_warn (context : InvocationContext) (args : list JsValue)
  : InvocationContext := context ++ [Warn args].

Definition dtoValue (d : ProductUpdatedDto) : JsValue :=
  JObject [ (str "id", id d); (str "name", name d);
            (str "pricePence", pricePence d);
            (str "description", description d);
            (str "updatedAt", updatedAt d) ].

Definition errorsValue (errors : list JsString) : JsValue :=
  JArray (map JString errors).

Section Handler.

Variable host : Host.

(** The response, and the context after the calls to [log] and [warn]. *)
Definition productUpdatedHttpHandler
    (request : HttpRequest) (context : InvocationContext)
  : HttpResponseInit * InvocationContext :=
  let context := context_log context [JString (str "Received product-updated event")] in
  match json request with
  | Thrown err =>
      let context := context_warn context [JString (str "Invalid JSON body"); err] in
      (mkResponse 400 (JObject [(str "error", JString (str "Invalid JSON body"))]),
       context)
  | Resolved body =>
      let result := validatePayload host body in
      if negb (ok result) then
        let errors := errorsOf result in
        let context :=
          context_warn context
            [JString (str "Validation failed"); errorsValue errors] in
        (mkResponse 400
           (JObject [ (str "error", JString (str "ValidationError"));
                      (str "details", errorsValue errors) ]),
         context)
      else
        let context :=
          match result with
          | Accepted data =>
              context_log context [JString (str "Product updated:"); dtoValue data]
          | Rejected _ => context
          end in
        (mkResponse 202 (JObject [(str "message", JString (str "accepted"))]),
         context)
  end.

End Handler.

(** A response with a JSON object for body. *)
Definition response (code : Z) (body : list (JsString * JsValue))
  : HttpResponseInit := mkResponse code (JObject body).

(** A host in UTC that recognizes nothing outside the format. *)
Definition utcHost : Host := mkHost (fun t => t) (fun _ => None).

Definition examplePayload : JsValue :=
  JObject [ (str "id", JString (str "p1"));
            (str "name", JString (str "Widget"));
            (str "pricePence", JNumber (binary64 500 0));
            (str "description", JString (str ""));
            (str "updatedAt", JString (str "2024-01-01T00:00:00.000Z")) ].


Definition badPayload : JsValue :=
  JObject [ (str "id", JString (str ""));
            (str "name", JString (str "Widget"));
            (str "pricePence", JNumber (binary64 (-5) 0));
            (str "description", JString (str ""));
            (str "updatedAt", JString (str "bad")) ].

(* ===================================================================== *)
(** ** The contract, in the words of the specification *)
(* ===================================================================== *)

(** The real number a finite binary64 stands for. *)
Definition numberValue (x : spec_float) : option Q :=
  match x with
  | S754_zero _ => Some 0%Q
  | S754_finite s m e =>
      Some ((if s then - (1) else 1) * inject_Z (Z.pos m) * Qpower 2 e)%Q
  | S754_infinity _ => None
  | S754_nan => None
  end.

(** A numeric value that is an integer, with no fractional component, and
    at least 0. *)
Definition IsNonNegativeInteger (v : JsValue) : Prop :=
  exists x q z,
    v = JNumber x /\ numberValue x = Some q /\ (q == inject_Z z)%Q /\ 0 <= z.

(** NaN, Infinity and -Infinity. *)
Definition nonFinite (x : spec_float) : bool :=
  match x with
  | S754_nan => true
  | S754_infinity _ => true
  | _ => false
  end.

(** Text that parses to a valid timestamp whose serialization is the text. *)
Definition IsCanonicalTimestamp (host : Host) (v : JsValue) : Prop :=
  exists s tv,
    v = JString s /\ Date_getTime host s = Some tv /\ toISOString tv = s.

(** Text that is not empty once the surrounding white space is trimmed. *)
Definition IsNonEmptyText (v : JsValue) : Prop :=
  exists s, v = JString s /\ trim s <> [].

Definition IsText (v : JsValue) : Prop :=
  exists s, v = JString s.

(** The property [key] is missing, is not text, or is text that trims to the
    empty string. *)
Definition missingOrBlank (props : list (JsString * JsValue)) (key : JsString)
  : Prop :=
  lookup key props = None
  \/ (exists v, lookup key props = Some v /\ typeof v <> TString)
  \/ (exists s, lookup key props = Some (JString s) /\ trim s = []).

(** The elements [toISOString] prints for a time value. *)
Definition fieldsOfTime (t : Z) : Fields :=
  mkFields (YearFromTime t) (MonthFromTime t + 1) (DateFromTime t) true
           (HourFromTime t) (MinFromTime t) (SecFromTime t) (msFromTime t)
           OffsetZ.

(** The five field rules in their order: whether the rule is violated, and
    its message. *)
Definition fieldRules (host : Host) (body : JsValue) : list (bool * JsString) :=
  [ (notNonEmptyString (getField body (str "id")), msgId);
    (notNonEmptyString (getField body (str "name")), msgName);
    (notNonNegativeInteger (getField body (str "pricePence")), msgPricePence);
    (notString (getField body (str "description")), msgDescription);
    (negb (isIsoDateString host (getField body (str "updatedAt"))), msgUpdatedAt) ].

(** One message per violated rule, in the order of the rules. *)
Definition violations (host : Host) (body : JsValue) : list JsString :=
  map snd (filter fst (fieldRules host body)).

(** A non-null object: what the guard of the validator lets through. *)
Definition passesGuard (body : JsValue) : bool :=
  ToBoolean body && JsType_eqb (typeof body) TObject.

(** The five properties the validator reads, each with the message of its
    rule. *)
Definition fieldMessages : list (JsString * JsString) :=
  [ (str "id", msgId); (str "name", msgName);
    (str "pricePence", msgPricePence);
    (str "description", msgDescription);
    (str "updatedAt", msgUpdatedAt) ].

(** What the destructuring pattern binds. *)
Definition destructure (body : JsValue) : ProductUpdatedDto :=
  mkDto (getField body (str "id")) (getField body (str "name"))
        (getField body (str "pricePence")) (getField body (str "description"))
        (getField body (str "updatedAt")).

(** The five constraints on the fields of a body, together. *)
Definition WellFormed (host : Host) (body : JsValue) : Prop :=
  IsNonEmptyText (getField body (str "id"))
  /\ IsNonEmptyText (getField body (str "name"))
  /\ IsNonNegativeInteger (getField body (str "pricePence"))
  /\ IsText (getField body (str "description"))
  /\ IsCanonicalTimestamp host (getField body (str "updatedAt")).

(** [a] is [b] with some elements left out, the others in their order. *)
Fixpoint isSubsequence (a b : list JsString) : bool :=
  match a, b with
  | [], _ => true
  | _ :: _, [] => false
  | x :: a', y :: b' =>
      if JsString_eqb x y then isSubsequence a' b' else isSubsequence a b'
  end.

(* ===================================================================== *)
(** ** Basic facts *)
(* ===================================================================== *)

Lemma JsString_eqb_eq (a b : JsString) : JsString_eqb a b = true <-> a = b.
Proof.
  unfold JsString_eqb. destruct (list_eq_dec N.eq_dec a b); split; congruence.
Qed.

Lemma JsString_eqb_refl (a : JsString) : JsString_eqb a a = true.
Proof. now apply JsString_eqb_eq. Qed.

Lemma passesGuard_object props : passesGuard (JObject props) = true.
Proof. reflexivity. Qed.

Lemma passesGuard_array items : passesGuard (JArray items) = true.
Proof. reflexivity. Qed.

(** The guard lets through objects and arrays, and nothing else. *)
Lemma passesGuard_inv body :
  passesGuard body = true ->
  (exists props, body = JObject props) \/ (exists items, body = JArray items).
Proof.
  destruct body as [ | | b | x | s | items | props ]; try discriminate; eauto.
  - destruct b; discriminate.
  - destruct x; discriminate.
  - unfold passesGuard. rewrite andb_false_r. discriminate.
Qed.

Section ValidatorFacts.

Variable host : Host.

Lemma validatePayload_blocked body :
  passesGuard body = false ->
  validatePayload host body = Rejected [msgBody].
Proof.
  unfold passesGuard, validatePayload. intros H.
  rewrite <- negb_andb, H. reflexivity.
Qed.

(** Past the guard, the pushes build the list of violations. *)
Lemma validatePayload_checked body :
  passesGuard body = true ->
  validatePayload host body =
    if (0 <? List.length (violations host body))%nat
    then Rejected (violations host body)
    else Accepted (mkDto (getField body (str "id"))
                         (getField body (str "name"))
                         (getField body (str "pricePence"))
                         (getField body (str "description"))
                         (getField body (str "updatedAt"))).
Proof.
  unfold passesGuard, validatePayload, violations, fieldRules, push. intros H.
  rewrite <- negb_andb, H. cbn [negb].
  destruct (notNonEmptyString (getField body (str "id")));
    destruct (notNonEmptyString (getField body (str "name")));
    destruct (notNonNegativeInteger (getField body (str "pricePence")));
    destruct (notString (getField body (str "description")));
    destruct (isIsoDateString host (getField body (str "updatedAt")));
    reflexivity.
Qed.

Lemma validatePayload_errors body :
  passesGuard body = true ->
  errorsOf (validatePayload host body) = violations host body.
Proof.
  intros H. rewrite (validatePayload_checked body H).
  destruct (violations host body); reflexivity.
Qed.

Lemma violations_length body : (List.length (violations host body) <= 5)%nat.
Proof.
  unfold violations. rewrite length_map.
  etransitivity; [apply filter_length_le | ]. reflexivity.
Qed.

End ValidatorFacts.

(** The messages are pairwise distinct, so each one in the list of violations
    tells which rule was violated. *)
Ltac decide_membership :=
  cbn [filter fst snd map In];
  split;
  [ intros H;
    repeat match goal with
           | H : _ \/ _ |- _ => destruct H as [H | H]
           | H : False |- _ => destruct H
           | H : _ = _ :> JsString |- _ =>
               first [ reflexivity | vm_compute in H; discriminate H ]
           end;
    try reflexivity
  | intros H; first [ discriminate H | tauto ] ].

Ltac split_rules host body :=
  unfold violations, fieldRules;
  destruct (notNonEmptyString (getField body (str "id")));
  destruct (notNonEmptyString (getField body (str "name")));
  destruct (notNonNegativeInteger (getField body (str "pricePence")));
  destruct (notString (getField body (str "description")));
  destruct (isIsoDateString host (getField body (str "updatedAt")));
  cbn [negb].

Section ViolationFacts.

Variable host : Host.

Lemma In_msgId body :
  In msgId (violations host body)
  <-> notNonEmptyString (getField body (str "id")) = true.
Proof. split_rules host body; decide_membership. Qed.

Lemma In_msgName body :
  In msgName (violations host body)
  <-> notNonEmptyString (getField body (str "name")) = true.
Proof. split_rules host body; decide_membership. Qed.

Lemma In_msgPricePence body :
  In msgPricePence (violations host body)
  <-> notNonNegativeInteger (getField body (str "pricePence")) = true.
Proof. split_rules host body; decide_membership. Qed.

Lemma In_msgDescription body :
  In msgDescription (violations host body)
  <-> notString (getField body (str "description")) = true.
Proof. split_rules host body; decide_membership. Qed.

Lemma In_msgUpdatedAt body :
  In msgUpdatedAt (violations host body)
  <-> isIsoDateString host (getField body (str "updatedAt")) = false.
Proof. split_rules host body; decide_membership. Qed.

End ViolationFacts.

(* ===================================================================== *)
(** ** Numbers: the check against the value *)
(* ===================================================================== *)

Lemma Number_ltZero_finite s m e :
  Number_ltZero (S754_finite s m e) = s.
Proof. destruct s; reflexivity. Qed.

Lemma pow2_nonneg (e : Z) :
  0 <= e -> (Qpower 2 e == inject_Z (2 ^ e))%Q.
Proof. intros H. symmetry. exact (Zpower_Qpower 2 e H). Qed.

Lemma pow2_neg (e : Z) :
  e < 0 -> (Qpower 2 e == / inject_Z (2 ^ (- e)))%Q.
Proof.
  intros H. replace e with (- (- e)) at 1 by lia.
  rewrite Qpower_opp, pow2_nonneg by lia. reflexivity.
Qed.

Lemma inject_pow2_nonzero (k : Z) : 0 <= k -> ~ (inject_Z (2 ^ k) == 0)%Q.
Proof.
  intros H E. change 0%Q with (inject_Z 0) in E.
  apply (proj1 (inject_Z_injective _ _)) in E.
  pose proof (Z.pow_pos_nonneg 2 k ltac:(lia) H) as Hp. rewrite E in Hp. lia.
Qed.

(** [a * 2^e] is the integer [z]. *)
Lemma scaled_is_integer (a e z : Z) :
  (inject_Z a * Qpower 2 e == inject_Z z)%Q
  <-> if 0 <=? e then z = a * 2 ^ e else a = z * 2 ^ (- e).
Proof.
  destruct (Z.leb_spec 0 e) as [He | He].
  - rewrite (pow2_nonneg e He), <- inject_Z_mult, inject_Z_injective.
    split; congruence.
  - rewrite (pow2_neg e He).
    pose proof (inject_pow2_nonzero (- e) ltac:(lia)) as Hnz.
    split; intros H.
    + apply (proj1 (inject_Z_injective _ _)).
      rewrite inject_Z_mult, <- H. field. exact Hnz.
    + subst a. rewrite inject_Z_mult. field. exact Hnz.
Qed.

(** The check of the code holds exactly of the numbers whose value is an
    integer and at least 0. *)
Lemma notNonNegativeInteger_false_iff (v : JsValue) :
  notNonNegativeInteger v = false <-> IsNonNegativeInteger v.
Proof.
  split.
  - destruct v as [ | | | x | | | ]; try discriminate.
    destruct x as [s | s | | s m e]; try discriminate; cbn [notNonNegativeInteger].
    + intros _. exists (S754_zero s), 0%Q, 0. repeat split; reflexivity || lia.
    + rewrite Number_ltZero_finite. intros H.
      apply orb_false_iff in H. destruct H as [Hint Hs]. subst s.
      apply negb_false_iff in Hint. cbn [Number_isInteger] in Hint.
      pose proof (Z.pow_pos_nonneg 2 (- e)) as Hpow.
      exists (S754_finite false m e).
      eexists.
      exists (if 0 <=? e then Z.pos m * 2 ^ e else Z.pos m / 2 ^ (- e)).
      split; [reflexivity | split; [reflexivity | ] ].
      destruct (Z.leb_spec 0 e) as [He | He].
      * split.
        -- rewrite Qmult_1_l. apply scaled_is_integer.
           destruct (Z.leb_spec 0 e); [reflexivity | lia].
        -- pose proof (Z.pow_nonneg 2 e). nia.
      * apply Z.eqb_eq in Hint.
        split.
        -- rewrite Qmult_1_l. apply scaled_is_integer.
           destruct (Z.leb_spec 0 e); [lia | ].
           pose proof (Z.div_mod (Z.pos m) (2 ^ (- e))). lia.
        -- apply Z.div_pos; lia.
  - intros (x & q & z & -> & Hq & Hz & Hpos).
    destruct x as [s | s | | s m e]; try discriminate; cbn [notNonNegativeInteger].
    + reflexivity.
    + rewrite Number_ltZero_finite. cbn [numberValue] in Hq.
      injection Hq as <-.
      pose proof (Z.pow_pos_nonneg 2 (- e)) as Hpow.
      pose proof (Z.pow_pos_nonneg 2 e) as Hpow'.
      destruct s.
      * exfalso.
        assert (H : (inject_Z (Z.pos m) * Qpower 2 e == inject_Z (- z))%Q).
        { rewrite inject_Z_opp, <- Hz. ring. }
        apply scaled_is_integer in H.
        destruct (Z.leb_spec 0 e); nia.
      * rewrite Qmult_1_l in Hz. apply scaled_is_integer in Hz.
        apply orb_false_iff. split; [ | reflexivity].
        apply negb_false_iff. cbn [Number_isInteger].
        destruct (Z.leb_spec 0 e) as [He | He]; [reflexivity | ].
        apply Z.eqb_eq. rewrite Hz. apply Z_mod_mult.
Qed.

(* ===================================================================== *)
(** ** Strings: what trimming leaves *)
(* ===================================================================== *)

Lemma trimStart_nil_iff (s : JsString) :
  trimStart s = [] <-> forallb isWhiteSpace s = true.
Proof.
  induction s as [ | c rest IH]; cbn [trimStart forallb].
  - tauto.
  - destruct (isWhiteSpace c); cbn [andb]; [exact IH | ].
    split; discriminate.
Qed.

Lemma trimStart_sticks (s : JsString) :
  forallb isWhiteSpace (trimStart s) = true -> trimStart s = [].
Proof.
  induction s as [ | c rest IH]; cbn [trimStart]; [reflexivity | ].
  destruct (isWhiteSpace c) eqn:E; [exact IH | ].
  cbn [forallb]. rewrite E. discriminate.
Qed.

Lemma forallb_rev {A} (f : A -> bool) (l : list A) :
  forallb f (rev l) = true -> forallb f l = true.
Proof.
  rewrite !forallb_forall. intros H x Hx. apply H. now apply in_rev in Hx.
Qed.

(** A string trims to the empty string exactly when it is white space only. *)
Lemma trim_nil_iff (s : JsString) :
  trim s = [] <-> forallb isWhiteSpace s = true.
Proof.
  unfold trim, trimEnd. split.
  - intros H. apply trimStart_nil_iff, trimStart_sticks, forallb_rev.
    apply trimStart_nil_iff.
    apply (f_equal (@rev N)) in H. rewrite rev_involutive in H. exact H.
  - intros H. apply trimStart_nil_iff in H. rewrite H. reflexivity.
Qed.

Lemma notNonEmptyString_false_iff (v : JsValue) :
  notNonEmptyString v = false <-> IsNonEmptyText v.
Proof.
  split.
  - destruct v as [ | | | | s | | ]; try discriminate.
    cbn [notNonEmptyString]. intros H. exists s. split; [reflexivity | ].
    intros E. rewrite E in H. discriminate.
  - intros (s & -> & H). cbn [notNonEmptyString].
    destruct (trim s); [contradiction | reflexivity].
Qed.

Lemma notString_false_iff (v : JsValue) :
  notString v = false <-> IsText v.
Proof.
  split.
  - destruct v as [ | | | | s | | ]; try discriminate. intros _. now exists s.
  - intros (s & ->). reflexivity.
Qed.

(* ===================================================================== *)
(** ** Timestamps: the shape of a serialization *)
(* ===================================================================== *)

Lemma ToZeroPaddedDecimalString_length (n : Z) (k : nat) :
  List.length (ToZeroPaddedDecimalString n k) = k.
Proof.
  induction k as [ | k IH]; cbn [ToZeroPaddedDecimalString List.length];
    congruence.
Qed.

Lemma yearString_length (y : Z) :
  List.length (yearString y) = 4%nat \/ List.length (yearString y) = 7%nat.
Proof.
  unfold yearString. destruct ((0 <=? y) && (y <=? 9999)).
  - left. apply ToZeroPaddedDecimalString_length.
  - right. rewrite length_app, ToZeroPaddedDecimalString_length.
    destruct (y <? 0); reflexivity.
Qed.

(** A serialization has 24 code units, or 27 with an expanded year. *)
Lemma toISOString_length (tv : Z) :
  List.length (toISOString tv) = 24%nat \/ List.length (toISOString tv) = 27%nat.
Proof.
  unfold toISOString.
  repeat rewrite length_app. repeat rewrite ToZeroPaddedDecimalString_length.
  cbn [str list_ascii_of_string map List.length].
  destruct (yearString_length (YearFromTime tv)) as [E | E]; rewrite E;
    [left | right]; reflexivity.
Qed.

Section TimestampFacts.

Variable host : Host.

Lemma isIsoDateString_true_iff (v : JsValue) :
  isIsoDateString host v = true <-> IsCanonicalTimestamp host v.
Proof.
  split.
  - destruct v as [ | | | | s | | ]; try discriminate.
    cbn [isIsoDateString]. destruct (Date_getTime host s) as [tv | ] eqn:E;
      [ | discriminate].
    intros H. apply JsString_eqb_eq in H. exists s, tv. auto.
  - intros (s & tv & -> & E & H). cbn [isIsoDateString]. rewrite E.
    apply JsString_eqb_eq. congruence.
Qed.

(** No text shorter than a serialization is one, whatever the host makes of it. *)
Lemma isIsoDateString_short (s : JsString) :
  (List.length s < 24)%nat -> isIsoDateString host (JString s) = false.
Proof.
  intros H. cbn [isIsoDateString].
  destruct (Date_getTime host s) as [tv | ]; [ | reflexivity].
  destruct (JsString_eqb s (toISOString tv)) eqn:E; [ | reflexivity].
  apply JsString_eqb_eq in E. pose proof (toISOString_length tv) as L.
  rewrite <- E in L. lia.
Qed.

End TimestampFacts.

(* ===================================================================== *)
(** ** The calendar: a time value and its elements *)
(* ===================================================================== *)

Lemma Day_bounds t : msPerDay * Day t <= t < msPerDay * Day t + msPerDay.
Proof.
  unfold Day, msPerDay.
  pose proof (Z.div_mod t 86400000). pose proof (Z.mod_pos_bound t 86400000). lia.
Qed.

Lemma YearFromTime_spec t :
  DayFromYear (YearFromTime t) <= Day t < DayFromYear (YearFromTime t + 1).
Proof.
  pose proof (Day_bounds t) as Hd.
  unfold YearFromTime, TimeFromYear, DayFromYear in *.
  set (d := Day t) in *. clearbody d. unfold msPerDay in *.
  repeat match goal with |- context [?a <=? ?b] => destruct (Z.leb_spec a b) end;
  (Z.div_mod_to_equations; lia).
Qed.

Lemma YearFromTime_range t :
  Z.abs t <= maxTime -> -271821 <= YearFromTime t <= 275760.
Proof.
  intros H. pose proof (YearFromTime_spec t) as Hy. pose proof (Day_bounds t) as Hd.
  unfold maxTime, msPerDay, DayFromYear in *.
  set (y := YearFromTime t) in *. clearbody y.
  set (d := Day t) in *. clearbody d.
  Z.div_mod_to_equations; lia.
Qed.

Lemma DayFromYear_succ y : DayFromYear (y + 1) = DayFromYear y + DaysInYear y.
Proof.
  unfold DayFromYear, DaysInYear, isLeapYear.
  repeat match goal with |- context [?a =? ?b] => destruct (Z.eqb_spec a b) end;
  cbn [negb]; Z.div_mod_to_equations; lia.
Qed.

Lemma DayWithinYear_range t :
  0 <= DayWithinYear t < DaysInYear (YearFromTime t).
Proof.
  pose proof (YearFromTime_spec t) as H. rewrite DayFromYear_succ in H.
  unfold DayWithinYear. lia.
Qed.

Lemma monthOfDay_spec leap d :
  0 <= d < 365 + Z.b2z leap ->
  let m := monthOfDay leap d in
  0 <= m <= 11 /\ monthStart leap m <= d < monthStart leap (m + 1).
Proof.
  intros H. unfold monthOfDay.
  repeat match goal with |- context [?a <? ?b] => destruct (Z.ltb_spec a b) end;
  destruct leap; cbn in *; lia.
Qed.

Lemma DaysInYear_b2z y : DaysInYear y = 365 + Z.b2z (isLeapYear y).
Proof. unfold DaysInYear. destruct (isLeapYear y); reflexivity. Qed.

Lemma MonthFromTime_spec t :
  0 <= MonthFromTime t <= 11 /\
  1 <= DateFromTime t <= DaysInMonth (YearFromTime t) (MonthFromTime t).
Proof.
  pose proof (DayWithinYear_range t) as H. rewrite DaysInYear_b2z in H.
  apply monthOfDay_spec in H. cbv zeta in H.
  unfold DateFromTime, DaysInMonth, MonthFromTime, InLeapYear in *. lia.
Qed.

Lemma MakeDay_FromTime t :
  MakeDay (YearFromTime t) (MonthFromTime t) (DateFromTime t) = Day t.
Proof.
  pose proof (MonthFromTime_spec t) as [Hm _].
  unfold MakeDay.
  rewrite (Z.div_small (MonthFromTime t) 12), (Z.mod_small (MonthFromTime t) 12) by lia.
  rewrite Z.add_0_r.
  unfold DateFromTime, DayWithinYear, InLeapYear. lia.
Qed.

Lemma time_fields_range t :
  0 <= HourFromTime t <= 23 /\ 0 <= MinFromTime t <= 59 /\
  0 <= SecFromTime t <= 59 /\ 0 <= msFromTime t <= 999.
Proof.
  unfold HourFromTime, MinFromTime, SecFromTime, msFromTime,
    msPerHour, msPerMinute, msPerSecond.
  Z.div_mod_to_equations; lia.
Qed.

Lemma MakeTime_FromTime t :
  MakeTime (HourFromTime t) (MinFromTime t) (SecFromTime t) (msFromTime t)
  = TimeWithinDay t.
Proof.
  unfold MakeTime, TimeWithinDay, HourFromTime, MinFromTime, SecFromTime, msFromTime,
    msPerHour, msPerMinute, msPerSecond, msPerDay.
  Z.div_mod_to_equations; lia.
Qed.

Lemma MakeDate_FromTime t : MakeDate (Day t) (TimeWithinDay t) = t.
Proof.
  unfold MakeDate, Day, TimeWithinDay, msPerDay.
  pose proof (Z.div_mod t 86400000). lia.
Qed.

Lemma isDigit_digitChar d : 0 <= d <= 9 -> isDigit (digitChar d) = true /\ Z.of_N (digitChar d - 48) = d.
Proof.
  intros H. unfold isDigit, digitChar. split.
  - apply andb_true_iff. split; apply N.leb_le; lia.
  - lia.
Qed.

Lemma readDigits_padded k : forall n acc rest,
  0 <= n ->
  readDigits k acc (ToZeroPaddedDecimalString n k ++ rest)
  = Some (acc * 10 ^ Z.of_nat k + n mod 10 ^ Z.of_nat k, rest).
Proof.
  induction k as [ | k IH]; intros n acc rest Hn.
  - cbn [readDigits ToZeroPaddedDecimalString app]. f_equal. f_equal.
    change (10 ^ Z.of_nat 0) with 1. rewrite Z.mod_1_r. lia.
  - cbn [readDigits ToZeroPaddedDecimalString app].
    assert (Hp : 0 < 10 ^ Z.of_nat k) by (apply Z.pow_pos_nonneg; lia).
    assert (Hd : 0 <= (n / 10 ^ Z.of_nat k) mod 10 <= 9)
      by (pose proof (Z.mod_pos_bound (n / 10 ^ Z.of_nat k) 10); lia).
    destruct (isDigit_digitChar _ Hd) as [E1 E2]. rewrite E1, E2.
    rewrite IH by assumption. f_equal. f_equal.
    rewrite Nat2Z.inj_succ, Z.pow_succ_r by lia.
    rewrite (Z.mul_comm 10 (10 ^ Z.of_nat k)).
    rewrite (Z.rem_mul_r n (10 ^ Z.of_nat k) 10) by lia.
    ring.
Qed.

Lemma readDigits_exact k n acc rest :
  0 <= n < 10 ^ Z.of_nat k ->
  readDigits k acc (ToZeroPaddedDecimalString n k ++ rest)
  = Some (acc * 10 ^ Z.of_nat k + n, rest).
Proof.
  intros H. rewrite readDigits_padded by lia. rewrite Z.mod_small by lia. reflexivity.
Qed.

Lemma digitChar_not_sign d :
  (digitChar d =? chPlus)%N = false /\ (digitChar d =? chMinus)%N = false.
Proof. unfold digitChar, chPlus, chMinus. split; apply N.eqb_neq; lia. Qed.

Lemma readYear_yearString y rest :
  -999999 <= y <= 999999 ->
  readYear (yearString y ++ rest) = Some (y, rest).
Proof.
  intros H. unfold yearString.
  destruct ((0 <=? y) && (y <=? 9999)) eqn:E.
  - apply andb_true_iff in E. destruct E as [E1 E2].
    apply Z.leb_le in E1, E2.
    pose proof (readDigits_exact 4 y 0 rest ltac:(cbn; lia)) as R.
    cbn [ToZeroPaddedDecimalString app] in *. unfold readYear.
    destruct (digitChar_not_sign ((y / 10 ^ Z.of_nat 3) mod 10)) as [-> ->].
    rewrite R. f_equal.
  - apply andb_false_iff in E.
    assert (Hy : y < 0 \/ 9999 < y).
    { destruct E as [E | E]; apply Z.leb_gt in E; lia. }
    pose proof (readDigits_exact 6 (Z.abs y) 0 rest ltac:(cbn; lia)) as R.
    destruct (Z.ltb_spec y 0) as [Hn | Hn].
    + change (str "-") with [chMinus]. cbn [app]. unfold readYear.
      change (chMinus =? chPlus)%N with false. cbn iota.
      rewrite N.eqb_refl, R. cbn [bind].
      destruct (Z.eqb_spec (0 * 10 ^ Z.of_nat 6 + Z.abs y) 0); [lia | ].
      f_equal. f_equal. lia.
    + change (str "+") with [chPlus]. cbn [app]. unfold readYear.
      rewrite N.eqb_refl, R. f_equal. f_equal. lia.
Qed.

Lemma readMonthDay_padded m d rest :
  0 <= m < 100 -> 0 <= d < 100 ->
  readMonthDay (chMinus :: ToZeroPaddedDecimalString m 2
                  ++ chMinus :: ToZeroPaddedDecimalString d 2 ++ rest)
  = Some (m, d, rest).
Proof.
  intros Hm Hd. unfold readMonthDay. rewrite N.eqb_refl.
  rewrite readDigits_exact by (cbn; lia). cbn [bind].
  rewrite N.eqb_refl, readDigits_exact by (cbn; lia). reflexivity.
Qed.

Lemma readHourMinute_padded h m rest :
  0 <= h < 100 -> 0 <= m < 100 ->
  readHourMinute (ToZeroPaddedDecimalString h 2
                    ++ chColon :: ToZeroPaddedDecimalString m 2 ++ rest)
  = Some (h, m, rest).
Proof.
  intros Hh Hm. unfold readHourMinute.
  rewrite readDigits_exact by (cbn; lia). cbn [bind].
  rewrite N.eqb_refl, readDigits_exact by (cbn; lia). reflexivity.
Qed.

Lemma readSeconds_padded s ms rest :
  0 <= s < 100 -> 0 <= ms < 1000 ->
  readSeconds (chColon :: ToZeroPaddedDecimalString s 2
                 ++ chDot :: ToZeroPaddedDecimalString ms 3 ++ rest)
  = Some (s, ms, rest).
Proof.
  intros Hs Hms. unfold readSeconds, readMillis. rewrite N.eqb_refl.
  rewrite readDigits_exact by (cbn; lia). cbn [bind].
  rewrite N.eqb_refl, readDigits_exact by (cbn; lia). reflexivity.
Qed.

Lemma DaysInMonth_le_31 y m : 0 <= m <= 11 -> DaysInMonth y m <= 31.
Proof.
  intros H. unfold DaysInMonth.
  assert (C : m = 0 \/ m = 1 \/ m = 2 \/ m = 3 \/ m = 4 \/ m = 5 \/ m = 6
              \/ m = 7 \/ m = 8 \/ m = 9 \/ m = 10 \/ m = 11) by lia.
  destruct (isLeapYear y);
    repeat (destruct C as [C | C]; [subst m; cbn; lia | ]); subst m; cbn; lia.
Qed.


Lemma readFields_toISOString t :
  Z.abs t <= maxTime ->
  readFields (toISOString t) = Some (fieldsOfTime t).
Proof.
  intros H.
  pose proof (YearFromTime_range t H) as Hy.
  pose proof (MonthFromTime_spec t) as [Hm Hd].
  pose proof (time_fields_range t) as (Hh & Hmi & Hs & Hms).
  pose proof (DaysInMonth_le_31 (YearFromTime t) (MonthFromTime t) Hm) as Hd'.
  unfold toISOString, readFields.
  rewrite readYear_yearString by lia. cbn [bind].
  change (str "-") with [chMinus]. change (str "T") with [chT].
  change (str ":") with [chColon]. change (str ".") with [chDot].
  change (str "Z") with [chZ]. cbn [app].
  rewrite readMonthDay_padded by lia. cbn [bind].
  rewrite N.eqb_refl.
  rewrite readHourMinute_padded by lia. cbn [bind].
  rewrite readSeconds_padded by lia. cbn [bind].
  reflexivity.
Qed.

Lemma legal_fieldsOfTime t : legal (fieldsOfTime t) = true.
Proof.
  pose proof (MonthFromTime_spec t) as [Hm Hd].
  pose proof (time_fields_range t) as (Hh & Hmi & Hs & Hms).
  unfold legal, fieldsOfTime.
  cbn [year month day hour minute second millisecond offset legalOffset].
  rewrite Z.add_simpl_r.
  repeat (apply andb_true_iff; split); try (apply Z.leb_le; lia); try reflexivity.
  apply orb_true_iff. left. apply Z.ltb_lt. lia.
Qed.

Section RoundTrip.

Variable host : Host.

Lemma fieldsTime_fieldsOfTime t : fieldsTime host (fieldsOfTime t) = t.
Proof.
  unfold fieldsTime, fieldsOfTime.
  cbn [year month day hour minute second millisecond offset hasTime offsetMs].
  rewrite Z.add_simpl_r, MakeDay_FromTime, MakeTime_FromTime, MakeDate_FromTime.
  lia.
Qed.

(** Parsing the serialization of a time value gives it back, on every host. *)
Lemma Date_parse_toISOString t :
  Z.abs t <= maxTime -> Date_parse host (toISOString t) = Some t.
Proof.
  intros H. unfold Date_parse.
  rewrite (readFields_toISOString t H), legal_fieldsOfTime, fieldsTime_fieldsOfTime.
  reflexivity.
Qed.

Lemma Date_getTime_range s tv :
  Date_getTime host s = Some tv -> Z.abs tv <= maxTime.
Proof.
  unfold Date_getTime, TimeClip.
  destruct (Date_parse host s) as [t | ]; [ | discriminate].
  destruct (Z.leb_spec (Z.abs t) maxTime); [ | discriminate].
  intros E. injection E as <-. assumption.
Qed.

Lemma Date_getTime_toISOString t :
  Z.abs t <= maxTime -> Date_getTime host (toISOString t) = Some t.
Proof.
  intros H. unfold Date_getTime, TimeClip. rewrite (Date_parse_toISOString t H).
  destruct (Z.leb_spec (Z.abs t) maxTime); [reflexivity | lia].
Qed.

(** The strings [isIsoDateString] holds of are the serializations of the
    time values in range. *)
Lemma isIsoDateString_serialization (s : JsString) :
  isIsoDateString host (JString s) = true
  <-> exists tv, Z.abs tv <= maxTime /\ s = toISOString tv.
Proof.
  split.
  - intros H. apply isIsoDateString_true_iff in H.
    destruct H as (s' & tv & E & Ht & Hs). injection E as <-.
    exists tv. split; [exact (Date_getTime_range s tv Ht) | congruence].
  - intros (tv & Ht & ->). cbn [isIsoDateString].
    rewrite (Date_getTime_toISOString tv Ht). apply JsString_eqb_refl.
Qed.

End RoundTrip.

(** The host has no say in [isIsoDateString]. *)
Lemma isIsoDateString_host_independent (h1 h2 : Host) (v : JsValue) :
  isIsoDateString h1 v = isIsoDateString h2 v.
Proof.
  destruct v as [ | | | | s | | ]; try reflexivity.
  destruct (isIsoDateString h1 (JString s)) eqn:E1;
    destruct (isIsoDateString h2 (JString s)) eqn:E2; try reflexivity.
  - apply isIsoDateString_serialization in E1.
    apply (isIsoDateString_serialization h2) in E1. congruence.
  - apply isIsoDateString_serialization in E2.
    apply (isIsoDateString_serialization h1) in E2. congruence.
Qed.

Lemma validatePayload_host_independent (h1 h2 : Host) (body : JsValue) :
  validatePayload h1 body = validatePayload h2 body.
Proof.
  unfold validatePayload.
  rewrite (isIsoDateString_host_independent h1 h2). reflexivity.
Qed.

(* ===================================================================== *)
(** ** The validator: acceptance *)
(* ===================================================================== *)

Section Acceptance.

Variable host : Host.

Lemma violations_nil_iff body :
  violations host body = [] <->
  notNonEmptyString (getField body (str "id")) = false
  /\ notNonEmptyString (getField body (str "name")) = false
  /\ notNonNegativeInteger (getField body (str "pricePence")) = false
  /\ notString (getField body (str "description")) = false
  /\ isIsoDateString host (getField body (str "updatedAt")) = true.
Proof.
  split_rules host body; cbn [filter fst snd map];
    split; intros H; try discriminate H; try tauto;
    repeat match goal with H : _ /\ _ |- _ => destruct H end; discriminate.
Qed.

(** The cast to [ProductUpdatedDto] is sound: accepted fields have the
    declared types. *)
Lemma accepted_typed body data :
  validatePayload host body = Accepted data ->
  IsText (id data) /\ IsText (name data)
  /\ (exists x, pricePence data = JNumber x)
  /\ IsText (description data) /\ IsText (updatedAt data).
Proof.
  intros H.
  destruct (passesGuard body) eqn:G.
  - rewrite (validatePayload_checked host body G) in H.
    destruct (violations host body) as [ | e es] eqn:V; [ | discriminate].
    apply violations_nil_iff in V. destruct V as (V1 & V2 & V3 & V4 & V5).
    cbn in H. injection H as <-. cbn [id name pricePence description updatedAt].
    apply notNonEmptyString_false_iff in V1, V2.
    apply notNonNegativeInteger_false_iff in V3.
    apply notString_false_iff in V4. apply isIsoDateString_true_iff in V5.
    destruct V1 as (s1 & E1 & _), V2 as (s2 & E2 & _),
      V3 as (x & _ & _ & E3 & _), V5 as (s5 & _ & E5 & _).
    repeat split; unfold IsText; eauto.
  - rewrite (validatePayload_blocked host body G) in H. discriminate.
Qed.

End Acceptance.

(* ===================================================================== *)
(** ** The contract of the validator *)
(* ===================================================================== *)

(** C1. A body whose five fields are well formed (id and name text that is
    not empty once trimmed, pricePence a number whose value is an integer at
    least 0, description text, updatedAt text that parses to a valid time
    whose serialization is the text itself) is accepted, and the accepted
    data holds the five fields of the body as they are, untrimmed. *)
Theorem validatePayload_accepts_well_formed (host : Host) (body : JsValue) :
  IsNonEmptyText (getField body (str "id")) ->
  IsNonEmptyText (getField body (str "name")) ->
  IsNonNegativeInteger (getField body (str "pricePence")) ->
  IsText (getField body (str "description")) ->
  IsCanonicalTimestamp host (getField body (str "updatedAt")) ->
  validatePayload host body =
    Accepted (mkDto (getField body (str "id"))
                    (getField body (str "name"))
                    (getField body (str "pricePence"))
                    (getField body (str "description"))
                    (getField body (str "updatedAt"))).
Proof.
  intros Hid Hname Hprice Hdesc Hdate.
  assert (G : passesGuard body = true).
  { destruct Hid as (s & E & _).
    destruct body; try discriminate E; reflexivity. }
  rewrite (validatePayload_checked host body G).
  replace (violations host body) with (@nil JsString); [reflexivity | ].
  symmetry. apply violations_nil_iff.
  repeat split.
  - now apply notNonEmptyString_false_iff.
  - now apply notNonEmptyString_false_iff.
  - now apply notNonNegativeInteger_false_iff.
  - now apply notString_false_iff.
  - now apply isIsoDateString_true_iff.
Qed.

Lemma validatePayload_accepts_well_formed_witness :
  validatePayload utcHost examplePayload =
    Accepted (mkDto (JString (str "p1")) (JString (str "Widget"))
                    (JNumber (binary64 500 0)) (JString (str ""))
                    (JString (str "2024-01-01T00:00:00.000Z"))).
Proof.
  apply (validatePayload_accepts_well_formed utcHost examplePayload).
  - exists (str "p1"). split; [reflexivity | vm_compute; discriminate].
  - exists (str "Widget"). split; [reflexivity | vm_compute; discriminate].
  - apply notNonNegativeInteger_false_iff. vm_compute. reflexivity.
  - exists (str ""). reflexivity.
  - exists (str "2024-01-01T00:00:00.000Z"), 1704067200000.
    split; [reflexivity | split; vm_compute; reflexivity].
Defined.

(** The stored id and name keep their surrounding white space. *)
Example validatePayload_keeps_padding (host : Host) :
  validatePayload host
    (JObject [ (str "id", JString (str " p1 "));
               (str "name", JString (str "Widget  "));
               (str "pricePence", JNumber (binary64 0 0));
               (str "description", JString (str ""));
               (str "updatedAt", JString (str "2024-01-01T00:00:00.000Z")) ])
  = Accepted (mkDto (JString (str " p1 ")) (JString (str "Widget  "))
                    (JNumber (binary64 0 0)) (JString (str ""))
                    (JString (str "2024-01-01T00:00:00.000Z"))).
Proof.
  rewrite (validatePayload_host_independent host utcHost). reflexivity.
Qed.

(** C2 (the code departs from it on arrays). An array passes the guard,
    [typeof] of an array being "object": it gets the five field messages, not
    the single message about the body. *)
Theorem validatePayload_array_gets_field_messages
    (host : Host) (items : list JsValue) :
  validatePayload host (JArray items) =
    Rejected [msgId; msgName; msgPricePence; msgDescription; msgUpdatedAt].
Proof. reflexivity. Qed.

(** Every other value that is not an object is turned away with the single
    message, before any field is looked at. *)
Lemma validatePayload_not_an_object (host : Host) (body : JsValue) :
  (forall props, body <> JObject props) ->
  (forall items, body <> JArray items) ->
  validatePayload host body = Rejected [msgBody].
Proof.
  intros Ho Ha. apply validatePayload_blocked.
  destruct (passesGuard body) eqn:G; [ | reflexivity].
  apply passesGuard_inv in G. destruct G as [(props & E) | (items & E)].
  - now apply Ho in E.
  - now apply Ha in E.
Qed.

(** C4. For an object, the updatedAt message is absent exactly when
    updatedAt is text that parses to a valid time whose serialization is the
    text itself; this fails of "2024-01-01" and holds of
    "2024-01-01T00:00:00.000Z", on every host. *)
Theorem validatePayload_updatedAt_iff_canonical
    (host : Host) (props : list (JsString * JsValue)) :
  (~ In msgUpdatedAt (errorsOf (validatePayload host (JObject props)))
   <-> IsCanonicalTimestamp host (getField (JObject props) (str "updatedAt")))
  /\ ~ IsCanonicalTimestamp host (JString (str "2024-01-01"))
  /\ IsCanonicalTimestamp host (JString (str "2024-01-01T00:00:00.000Z")).
Proof.
  split; [ | split].
  - rewrite (validatePayload_errors host _ (passesGuard_object props)).
    rewrite In_msgUpdatedAt, <- isIsoDateString_true_iff.
    destruct (isIsoDateString host (getField (JObject props) (str "updatedAt")));
      split; congruence.
  - intros H. apply isIsoDateString_true_iff in H.
    rewrite isIsoDateString_short in H; [discriminate | cbn; lia].
  - apply isIsoDateString_true_iff, isIsoDateString_serialization.
    exists 1704067200000. split; vm_compute; [discriminate | reflexivity].
Qed.

(** C5. For an object with a violated rule, the result is the rejection that
    carries one message per violated rule of the five, each rule judged on its
    own field, in the order id, name, pricePence, description, updatedAt. *)
Theorem validatePayload_reports_every_violation
    (host : Host) (props : list (JsString * JsValue)) :
  violations host (JObject props) <> [] ->
  validatePayload host (JObject props)
  = Rejected (violations host (JObject props)).
Proof.
  intros H. rewrite (validatePayload_checked host _ (passesGuard_object props)).
  destruct (violations host (JObject props)); [contradiction | reflexivity].
Qed.

Lemma validatePayload_reports_every_violation_witness :
  validatePayload utcHost badPayload
  = Rejected [msgId; msgPricePence; msgUpdatedAt].
Proof.
  apply (validatePayload_reports_every_violation utcHost
           [ (str "id", JString (str ""));
             (str "name", JString (str "Widget"));
             (str "pricePence", JNumber (binary64 (-5) 0));
             (str "description", JString (str ""));
             (str "updatedAt", JString (str "bad")) ]).
  vm_compute. discriminate.
Defined.

(** C6. For an object, the pricePence message is present exactly when
    pricePence is not a number whose value is an integer at least 0: it is
    for -1 and for 3.5, and is not for 0. *)
Theorem validatePayload_pricePence_iff_not_natural
    (host : Host) (props : list (JsString * JsValue)) :
  (In msgPricePence (errorsOf (validatePayload host (JObject props)))
   <-> ~ IsNonNegativeInteger (getField (JObject props) (str "pricePence")))
  /\ ~ IsNonNegativeInteger (JNumber (binary64 (-1) 0))
  /\ ~ IsNonNegativeInteger (JNumber (binary64 7 (-1)))
  /\ IsNonNegativeInteger (JNumber (binary64 0 0)).
Proof.
  repeat split.
  - rewrite (validatePayload_errors host _ (passesGuard_object props)).
    rewrite In_msgPricePence. intros H N.
    apply notNonNegativeInteger_false_iff in N. congruence.
  - rewrite (validatePayload_errors host _ (passesGuard_object props)).
    rewrite In_msgPricePence, <- notNonNegativeInteger_false_iff.
    destruct (notNonNegativeInteger (getField (JObject props) (str "pricePence")));
      congruence.
  - rewrite <- notNonNegativeInteger_false_iff. vm_compute. discriminate.
  - rewrite <- notNonNegativeInteger_false_iff. vm_compute. discriminate.
  - apply notNonNegativeInteger_false_iff. reflexivity.
Qed.

(** C7. For an object whose id is missing, is not text, or is text that is
    empty once trimmed, the result is a rejection that includes the id
    message; and likewise for name and the name message. *)
Theorem validatePayload_rejects_blank_id_or_name
    (host : Host) (props : list (JsString * JsValue))
    (key message : JsString) :
  (key, message) = (str "id", msgId)
  \/ (key, message) = (str "name", msgName) ->
  missingOrBlank props key ->
  exists errors,
    validatePayload host (JObject props) = Rejected errors
    /\ In message errors.
Proof.
  intros Hkey Hblank.
  assert (V : notNonEmptyString (getField (JObject props) key) = true).
  { cbn [getField].
    destruct Hblank as [E | [(v & E & T) | (s & E & T)] ]; rewrite E.
    - reflexivity.
    - destruct v; try reflexivity. now contradiction T.
    - cbn [notNonEmptyString]. rewrite T. reflexivity. }
  assert (M : In message (violations host (JObject props))).
  { destruct Hkey as [E | E]; injection E as -> ->.
    - now apply In_msgId.
    - now apply In_msgName. }
  exists (violations host (JObject props)). split; [ | exact M].
  rewrite (validatePayload_checked host _ (passesGuard_object props)).
  destruct (violations host (JObject props)); [destruct M | reflexivity].
Qed.

Lemma validatePayload_rejects_blank_id_or_name_witness :
  exists errors,
    validatePayload utcHost (JObject [(str "id", JString (str "  "))])
    = Rejected errors
    /\ In msgId errors.
Proof.
  apply (validatePayload_rejects_blank_id_or_name utcHost
           [(str "id", JString (str "  "))] (str "id") msgId).
  - left. reflexivity.
  - right. right. exists (str "  "). split; reflexivity.
Defined.

(** C8. The result is a function of the body alone: equal bodies give equal
    results, whatever the host the two calls run on (its time zone, its own
    date heuristics). *)
Theorem validatePayload_pure (h1 h2 : Host) (body1 body2 : JsValue) :
  body1 = body2 -> validatePayload h1 body1 = validatePayload h2 body2.
Proof.
  intros <-. apply validatePayload_host_independent.
Qed.

Lemma validatePayload_pure_witness :
  validatePayload utcHost examplePayload
  = validatePayload (mkHost (fun t => t - 3600000) (fun _ => Some 0))
                    examplePayload.
Proof.
  apply (validatePayload_pure utcHost
           (mkHost (fun t => t - 3600000) (fun _ => Some 0))
           examplePayload examplePayload).
  reflexivity.
Defined.

(** C9. The result is an acceptance or a rejection; a rejection carries at
    least one message, and at most five when the body is a non-null object. *)
Theorem validatePayload_result_shape (host : Host) (body : JsValue) :
  (exists data, validatePayload host body = Accepted data)
  \/ (exists errors,
        validatePayload host body = Rejected errors
        /\ errors <> []
        /\ (typeof body = TObject -> body <> JNull ->
            (List.length errors <= 5)%nat)).
Proof.
  destruct (passesGuard body) eqn:G.
  - rewrite (validatePayload_checked host body G).
    pose proof (violations_length host body) as L.
    destruct (violations host body) as [ | e es]; cbn [List.length Nat.ltb Nat.leb].
    + left. eauto.
    + right. exists (e :: es). repeat split; [discriminate | auto].
  - right. exists [msgBody]. rewrite (validatePayload_blocked host body G).
    repeat split; [discriminate | cbn; lia].
Qed.

(** C10. An object whose pricePence is NaN, Infinity or -Infinity is rejected
    with the pricePence message: the value is of type number and is not an
    integer. *)
Theorem validatePayload_rejects_non_finite_price
    (host : Host) (props : list (JsString * JsValue)) (x : spec_float) :
  lookup (str "pricePence") props = Some (JNumber x) ->
  nonFinite x = true ->
  typeof (JNumber x) = TNumber
  /\ Number_isInteger x = false
  /\ exists errors,
       validatePayload host (JObject props) = Rejected errors
       /\ In msgPricePence errors.
Proof.
  intros E F.
  assert (I : Number_isInteger x = false) by (destruct x; try discriminate F; reflexivity).
  split; [reflexivity | split; [exact I | ] ].
  assert (M : In msgPricePence (violations host (JObject props))).
  { apply In_msgPricePence. cbn [getField]. rewrite E.
    cbn [notNonNegativeInteger]. rewrite I. reflexivity. }
  exists (violations host (JObject props)). split; [ | exact M].
  rewrite (validatePayload_checked host _ (passesGuard_object props)).
  destruct (violations host (JObject props)); [destruct M | reflexivity].
Qed.

Lemma validatePayload_rejects_non_finite_price_witness :
  exists errors,
    validatePayload utcHost (JObject [(str "pricePence", JNumber S754_nan)])
    = Rejected errors
    /\ In msgPricePence errors.
Proof.
  apply (validatePayload_rejects_non_finite_price utcHost
           [(str "pricePence", JNumber S754_nan)] S754_nan);
    reflexivity.
Defined.

(* ===================================================================== *)
(** ** The contract of the handler *)
(* ===================================================================== *)

(** What the handler writes to the context: the arrival, then one entry
    for the outcome. The validator itself writes nothing. *)
Lemma productUpdatedHttpHandler_context
    (host : Host) (request : HttpRequest) (context : InvocationContext) :
  snd (productUpdatedHttpHandler host request context)
  = context
      ++ [ Log [JString (str "Received product-updated event")];
           match json request with
           | Thrown err => Warn [JString (str "Invalid JSON body"); err]
           | Resolved body =>
               match validatePayload host body with
               | Rejected errors =>
                   Warn [JString (str "Validation failed"); errorsValue errors]
               | Accepted data =>
                   Log [JString (str "Product updated:"); dtoValue data]
               end
           end ].
Proof.
  unfold productUpdatedHttpHandler, context_log, context_warn.
  destruct (json request) as [body | err].
  - destruct (validatePayload host body); cbn [ok negb errorsOf snd];
      rewrite <- app_assoc; reflexivity.
  - cbn [snd]. rewrite <- app_assoc. reflexivity.
Qed.

(** C3. The response follows the table: 400 and the fixed error when the
    body is not JSON, 400 and the list of messages when validation fails, 202
    and the acknowledgement when it passes. The well-formed example gets 202,
    and the example with a bad id, price and date gets 400 with the three
    messages. *)
Theorem productUpdatedHttpHandler_response
    (host : Host) (request : HttpRequest) (context : InvocationContext) :
  fst (productUpdatedHttpHandler host request context)
  = match json request with
    | Thrown _ =>
        response 400 [(str "error", JString (str "Invalid JSON body"))]
    | Resolved body =>
        match validatePayload host body with
        | Rejected errors =>
            response 400 [ (str "error", JString (str "ValidationError"));
                           (str "details", JArray (map JString errors)) ]
        | Accepted _ =>
            response 202 [(str "message", JString (str "accepted"))]
        end
    end
  /\ fst (productUpdatedHttpHandler host (mkRequest (Resolved examplePayload))
            context)
     = response 202 [(str "message", JString (str "accepted"))]
  /\ fst (productUpdatedHttpHandler host (mkRequest (Resolved badPayload))
            context)
     = response 400
         [ (str "error", JString (str "ValidationError"));
           (str "details",
            JArray [ JString msgId; JString msgPricePence;
                     JString msgUpdatedAt ]) ].
Proof.
  assert (T : forall req,
    fst (productUpdatedHttpHandler host req context)
    = match json req with
      | Thrown _ =>
          response 400 [(str "error", JString (str "Invalid JSON body"))]
      | Resolved body =>
          match validatePayload host body with
          | Rejected errors =>
              response 400 [ (str "error", JString (str "ValidationError"));
                             (str "details", JArray (map JString errors)) ]
          | Accepted _ =>
              response 202 [(str "message", JString (str "accepted"))]
          end
      end).
  { intros req. unfold productUpdatedHttpHandler.
    destruct (json req) as [body | err]; [ | reflexivity].
    destruct (validatePayload host body); reflexivity. }
  split; [apply T | split]; rewrite T; cbn [json].
  - rewrite (validatePayload_host_independent host utcHost). reflexivity.
  - rewrite (validatePayload_host_independent host utcHost). reflexivity.
Qed.

(* ===================================================================== *)
(** ** More on [isIsoDateString] *)
(* ===================================================================== *)

Lemma toISOString_last (tv : Z) : last (toISOString tv) 0%N = chZ.
Proof.
  unfold toISOString. change (str "Z") with [chZ].
  rewrite !app_assoc. apply last_last.
Qed.

Lemma isIsoDateString_inv (host : Host) (s : JsString) :
  isIsoDateString host (JString s) = true ->
  exists tv,
    Date_getTime host s = Some tv /\ Z.abs tv <= maxTime /\ s = toISOString tv.
Proof.
  intros H. apply isIsoDateString_true_iff in H.
  destruct H as (s' & tv & E & Ht & Hs). injection E as <-.
  exists tv. repeat split; [exact Ht | exact (Date_getTime_range host s tv Ht) | ].
  congruence.
Qed.

(** X1. On every host, [isIsoDateString] holds of a value exactly when it is
    the string [toISOString] prints for some time value within 8.64e15 ms of
    the epoch: the check is a membership test for that set of strings, and
    host-specific date parsing cannot add to it. *)
Theorem isIsoDateString_iff_serialization (host : Host) (v : JsValue) :
  isIsoDateString host v = true
  <-> exists tv, Z.abs tv <= maxTime /\ v = JString (toISOString tv).
Proof.
  split.
  - destruct v as [ | | | | s | | ]; try discriminate.
    intros H. apply isIsoDateString_inv in H. destruct H as (tv & _ & R & ->).
    exists tv. split; [exact R | reflexivity].
  - intros (tv & R & ->). apply isIsoDateString_serialization. eauto.
Qed.

(** X2. A string [isIsoDateString] holds of has 24 code units, or 27 (a
    signed six-digit year), and ends in Z: a date alone, a time without
    milliseconds and a numeric UTC offset are all refused. *)
Theorem isIsoDateString_shape (host : Host) (s : JsString) :
  isIsoDateString host (JString s) = true ->
  (List.length s = 24%nat \/ List.length s = 27%nat) /\ last s 0%N = chZ.
Proof.
  intros H. apply isIsoDateString_inv in H. destruct H as (tv & _ & _ & ->).
  split; [apply toISOString_length | apply toISOString_last].
Qed.

Lemma isIsoDateString_shape_witness :
  (List.length (str "2024-01-01T00:00:00.000Z") = 24%nat
   \/ List.length (str "2024-01-01T00:00:00.000Z") = 27%nat)
  /\ last (str "2024-01-01T00:00:00.000Z") 0%N = chZ.
Proof.
  apply (isIsoDateString_shape utcHost (str "2024-01-01T00:00:00.000Z")).
  vm_compute. reflexivity.
Defined.

(** X3. Two strings [isIsoDateString] holds of are equal exactly when they
    denote the same instant: an instant has one accepted spelling. *)
Theorem isIsoDateString_one_spelling (host : Host) (s1 s2 : JsString) :
  isIsoDateString host (JString s1) = true ->
  isIsoDateString host (JString s2) = true ->
  (s1 = s2 <-> Date_getTime host s1 = Date_getTime host s2).
Proof.
  intros H1 H2.
  apply isIsoDateString_inv in H1, H2.
  destruct H1 as (t1 & G1 & _ & E1), H2 as (t2 & G2 & _ & E2).
  split.
  - intros <-. reflexivity.
  - rewrite G1, G2. intros E. injection E as <-. congruence.
Qed.

Lemma isIsoDateString_one_spelling_witness :
  str "2024-01-01T00:00:00.000Z" = str "2024-01-01T00:00:00.000Z"
  <-> Date_getTime utcHost (str "2024-01-01T00:00:00.000Z")
      = Date_getTime utcHost (str "2024-01-01T00:00:00.000Z").
Proof.
  apply (isIsoDateString_one_spelling utcHost
           (str "2024-01-01T00:00:00.000Z") (str "2024-01-01T00:00:00.000Z"));
    vm_compute; reflexivity.
Defined.

(* ===================================================================== *)
(** ** More on [validatePayload] *)
(* ===================================================================== *)

Lemma WellFormed_iff_no_violation (host : Host) (body : JsValue) :
  WellFormed host body <-> violations host body = [].
Proof.
  unfold WellFormed.
  rewrite violations_nil_iff, <- !notNonEmptyString_false_iff,
    <- notNonNegativeInteger_false_iff, <- notString_false_iff,
    <- isIsoDateString_true_iff.
  reflexivity.
Qed.

Lemma WellFormed_passesGuard (host : Host) (body : JsValue) :
  WellFormed host body -> passesGuard body = true.
Proof.
  intros ((s & E & _) & _). destruct body; try discriminate E; reflexivity.
Qed.

Lemma validatePayload_accepted_inv (host : Host) (body : JsValue)
    (data : ProductUpdatedDto) :
  validatePayload host body = Accepted data ->
  violations host body = [] /\ data = destructure body.
Proof.
  intros H. destruct (passesGuard body) eqn:G.
  - rewrite (validatePayload_checked host body G) in H.
    destruct (violations host body); [ | discriminate H].
    cbn in H. injection H as <-. split; reflexivity.
  - rewrite (validatePayload_blocked host body G) in H. discriminate H.
Qed.

Lemma msgBody_not_a_violation (host : Host) (body : JsValue) :
  ~ In msgBody (violations host body).
Proof.
  split_rules host body; cbn [filter fst snd map In]; intros H;
    repeat match goal with
           | H : _ \/ _ |- _ => destruct H as [H | H]
           | H : False |- _ => destruct H
           | H : _ = _ :> JsString |- _ => vm_compute in H; discriminate H
           end.
Qed.

Lemma accepted_iff_WellFormed
    (host : Host) (body : JsValue) (data : ProductUpdatedDto) :
  validatePayload host body = Accepted data
  <-> WellFormed host body /\ data = destructure body.
Proof.
  split.
  - intros H. apply validatePayload_accepted_inv in H. destruct H as [V E].
    split; [now apply WellFormed_iff_no_violation | exact E].
  - intros [W ->].
    rewrite (validatePayload_checked host body (WellFormed_passesGuard host body W)).
    apply WellFormed_iff_no_violation in W. rewrite W. reflexivity.
Qed.

(** X4. The validator accepts exactly the bodies whose five fields meet
    their constraints together, and what it returns is then the five fields
    as the body has them: nothing is accepted that breaks a constraint, and
    no other property of the body reaches the result. *)
Theorem validatePayload_accepted_iff
    (host : Host) (body : JsValue) (data : ProductUpdatedDto) :
  validatePayload host body = Accepted data
  <-> WellFormed host body /\ data = destructure body.
Proof.
  exact (accepted_iff_WellFormed host body data).
Qed.

(** X5. The result depends on the five properties alone: two objects that
    agree on id, name, pricePence, description and updatedAt get the same
    result, whatever else they hold and in whatever order. *)
Theorem validatePayload_ignores_other_properties
    (host : Host) (props props' : list (JsString * JsValue)) :
  (forall key, In key (map fst fieldMessages) ->
               lookup key props = lookup key props') ->
  validatePayload host (JObject props) = validatePayload host (JObject props').
Proof.
  intros H.
  assert (G : forall key, In key (map fst fieldMessages) ->
                getField (JObject props) key = getField (JObject props') key).
  { intros key K. cbn [getField]. rewrite (H key K). reflexivity. }
  unfold validatePayload. cbn [ToBoolean typeof JsType_eqb negb orb].
  rewrite !G by (cbn; tauto). reflexivity.
Qed.

Lemma validatePayload_ignores_other_properties_witness :
  validatePayload utcHost
    (JObject [ (str "sku", JNull); (str "id", JString (str "p1")) ])
  = validatePayload utcHost
      (JObject [ (str "id", JString (str "p1"));
                 (str "tags", JArray [JBoolean true]) ]).
Proof.
  apply (validatePayload_ignores_other_properties utcHost
           [ (str "sku", JNull); (str "id", JString (str "p1")) ]
           [ (str "id", JString (str "p1"));
             (str "tags", JArray [JBoolean true]) ]).
  intros key K. cbn in K.
  repeat (destruct K as [K | K]; [subst key; reflexivity | ]). destruct K.
Defined.

(** X6. For an object, the description message is present exactly when
    description is not a string, a missing one included; any string passes,
    the empty one too. *)
Theorem validatePayload_description_iff_not_text
    (host : Host) (props : list (JsString * JsValue)) :
  (In msgDescription (errorsOf (validatePayload host (JObject props)))
   <-> ~ IsText (getField (JObject props) (str "description")))
  /\ (lookup (str "description") props = None ->
      In msgDescription (errorsOf (validatePayload host (JObject props))))
  /\ (lookup (str "description") props = Some (JString []) ->
      ~ In msgDescription (errorsOf (validatePayload host (JObject props)))).
Proof.
  rewrite (validatePayload_errors host _ (passesGuard_object props)).
  rewrite In_msgDescription.
  split; [ | split].
  - rewrite <- notString_false_iff.
    destruct (notString (getField (JObject props) (str "description")));
      split; congruence.
  - intros E. cbn [getField]. rewrite E. reflexivity.
  - intros E. cbn [getField]. rewrite E. discriminate.
Qed.

(** X7. For an object, the id message is present exactly when id is not a
    string or is made of white space only (spaces, tabs, line terminators,
    no-break and other Unicode spaces, the byte order mark); and the same for
    name. One code unit that is not white space is enough to pass. *)
Theorem validatePayload_blank_iff_white_space
    (host : Host) (props : list (JsString * JsValue)) :
  (In msgId (errorsOf (validatePayload host (JObject props)))
   <-> forall s, getField (JObject props) (str "id") = JString s ->
                 forallb isWhiteSpace s = true)
  /\ (In msgName (errorsOf (validatePayload host (JObject props)))
      <-> forall s, getField (JObject props) (str "name") = JString s ->
                    forallb isWhiteSpace s = true).
Proof.
  assert (B : forall v,
    notNonEmptyString v = true
    <-> forall s, v = JString s -> forallb isWhiteSpace s = true).
  { intros v. split.
    - intros H s ->. cbn [notNonEmptyString] in H. apply trim_nil_iff.
      destruct (trim s); [reflexivity | discriminate H].
    - intros H. destruct v as [ | | | | s | | ]; try reflexivity.
      cbn [notNonEmptyString].
      rewrite (proj2 (trim_nil_iff s) (H s eq_refl)). reflexivity. }
  rewrite (validatePayload_errors host _ (passesGuard_object props)).
  rewrite In_msgId, In_msgName. split; apply B.
Qed.

(** X8. The message about the body and the messages about the fields never
    come together: a result names the body exactly when the body is neither
    an object nor an array, and that message is then the only one. *)
Theorem validatePayload_body_message_alone (host : Host) (body : JsValue) :
  (In msgBody (errorsOf (validatePayload host body))
   <-> (forall props, body <> JObject props)
       /\ (forall items, body <> JArray items))
  /\ (In msgBody (errorsOf (validatePayload host body)) ->
      validatePayload host body = Rejected [msgBody]).
Proof.
  destruct (passesGuard body) eqn:G.
  - rewrite (validatePayload_errors host body G).
    pose proof (msgBody_not_a_violation host body) as N.
    split; [split | ]; try (intros H; now contradiction N).
    intros [Ho Ha]. apply passesGuard_inv in G.
    destruct G as [(props & E) | (items & E)];
      [now apply Ho in E | now apply Ha in E].
  - rewrite (validatePayload_blocked host body G). cbn [errorsOf].
    split; [split | ]; try reflexivity; try (intros _).
    + split; intros x ->; discriminate G.
    + left. reflexivity.
Qed.

(** X9. The messages of a result are pairwise distinct, and are either the
    body message alone or some of the five field messages in the order id,
    name, pricePence, description, updatedAt. *)
Theorem validatePayload_errors_ordered_distinct (host : Host) (body : JsValue) :
  NoDup (errorsOf (validatePayload host body))
  /\ (errorsOf (validatePayload host body) = [msgBody]
      \/ isSubsequence (errorsOf (validatePayload host body))
                       (map snd fieldMessages) = true).
Proof.
  destruct (passesGuard body) eqn:G.
  - rewrite (validatePayload_errors host body G).
    split; [ | right].
    + split_rules host body; cbn [filter fst snd map];
        repeat (constructor;
                [ cbn [In]; intros H;
                  repeat match goal with
                         | H : _ \/ _ |- _ => destruct H as [H | H]
                         | H : False |- _ => destruct H
                         | H : _ = _ :> JsString |- _ =>
                             vm_compute in H; discriminate H
                         end
                | ]);
        constructor.
    + split_rules host body; vm_compute; reflexivity.
  - rewrite (validatePayload_blocked host body G). cbn [errorsOf].
    split; [ | left; reflexivity].
    constructor; [intros [] | constructor].
Qed.

(** X10. For an object, each of the five properties that is missing or is
    null gets its message: none of the rules lets an absent value through. *)
Theorem validatePayload_reports_missing_or_null
    (host : Host) (props : list (JsString * JsValue))
    (key message : JsString) :
  In (key, message) fieldMessages ->
  lookup key props = None \/ lookup key props = Some JNull ->
  exists errors,
    validatePayload host (JObject props) = Rejected errors
    /\ In message errors.
Proof.
  intros K A.
  assert (U : getField (JObject props) key = JUndefined
              \/ getField (JObject props) key = JNull).
  { cbn [getField]. destruct A as [-> | ->]; auto. }
  assert (M : In message (violations host (JObject props))).
  { cbn [fieldMessages In] in K.
    destruct K as [K | [K | [K | [K | [K | [] ] ] ] ] ]; injection K as <- <-.
    - apply In_msgId. destruct U as [-> | ->]; reflexivity.
    - apply In_msgName. destruct U as [-> | ->]; reflexivity.
    - apply In_msgPricePence. destruct U as [-> | ->]; reflexivity.
    - apply In_msgDescription. destruct U as [-> | ->]; reflexivity.
    - apply In_msgUpdatedAt. destruct U as [-> | ->]; reflexivity. }
  exists (violations host (JObject props)). split; [ | exact M].
  rewrite (validatePayload_checked host _ (passesGuard_object props)).
  destruct (violations host (JObject props)); [destruct M | reflexivity].
Qed.

Lemma validatePayload_reports_missing_or_null_witness :
  exists errors,
    validatePayload utcHost (JObject [(str "updatedAt", JNull)])
    = Rejected errors
    /\ In msgUpdatedAt errors.
Proof.
  apply (validatePayload_reports_missing_or_null utcHost
           [(str "updatedAt", JNull)] (str "updatedAt") msgUpdatedAt).
  - cbn. tauto.
  - right. reflexivity.
Defined.

(* ===================================================================== *)
(** ** More on the handler *)
(* ===================================================================== *)

(** X11. The handler answers 202 or 400, and 202 exactly when the request
    body decodes to a value whose five fields meet their constraints: a body
    that is not JSON, is not an object, or breaks a field rule gets 400. *)
Theorem productUpdatedHttpHandler_status
    (host : Host) (request : HttpRequest) (context : InvocationContext) :
  (status (fst (productUpdatedHttpHandler host request context)) = 202
   \/ status (fst (productUpdatedHttpHandler host request context)) = 400)
  /\ (status (fst (productUpdatedHttpHandler host request context)) = 202
      <-> exists body, json request = Resolved body /\ WellFormed host body).
Proof.
  unfold productUpdatedHttpHandler.
  destruct (json request) as [body | err]; cbn [fst status].
  - destruct (validatePayload host body) as [data | errors] eqn:V;
      cbn [ok negb fst status].
    + split; [left; reflexivity | ].
      split; [intros _ | reflexivity].
      exists body. split; [reflexivity | ].
      now apply (accepted_iff_WellFormed host body data) in V.
    + split; [right; reflexivity | ].
      split; [discriminate | ].
      intros (body' & E & W). injection E as <-.
      assert (A : validatePayload host body = Accepted (destructure body))
        by (apply accepted_iff_WellFormed; auto).
      congruence.
  - split; [right; reflexivity | ].
    split; [discriminate | ].
    intros (body' & E & _). discriminate E.
Qed.

(** X12. The handler keeps the entries the context already has and appends
    two: the arrival, then the outcome. The outcome is a warning with the
    thrown error, a warning with the very messages the response lists, or,
    on success, a log of the five fields of the body and of no other
    property. *)
Theorem productUpdatedHttpHandler_log
    (host : Host) (request : HttpRequest) (context : InvocationContext) :
  snd (productUpdatedHttpHandler host request context)
  = context
      ++ [ Log [JString (str "Received product-updated event")];
           match json request with
           | Thrown err => Warn [JString (str "Invalid JSON body"); err]
           | Resolved body =>
               if status (fst (productUpdatedHttpHandler host request context))
                  =? 202
               then Log [ JString (str "Product updated:");
                          dtoValue (destructure body) ]
               else Warn [ JString (str "Validation failed");
                           errorsValue (errorsOf (validatePayload host body)) ]
           end ].
Proof.
  rewrite productUpdatedHttpHandler_context.
  unfold productUpdatedHttpHandler.
  destruct (json request) as [body | err]; [ | reflexivity].
  destruct (validatePayload host body) as [data | errors] eqn:V;
    cbn [ok negb fst status Z.eqb Pos.eqb errorsOf]; [ | reflexivity].
  apply validatePayload_accepted_inv in V. destruct V as [_ ->]. reflexivity.
Qed.
